(** * Catalog metadata operations of [fate_arch/data_table/base.py]

    A shallow embedding of the three metadata methods of the abstract class
    [Table] ([get_schema], [save_schema], [destroy_schema]) together with the
    fragment of Python they run on: dynamically typed values, truthiness,
    [len], slicing, method lookup, exceptions, and the catalog table
    [MachineLearningDataSchema] held by the database. *)

From Stdlib Require Import ZArith String Ascii List Bool Lia DecimalString.
Import ListNotations.
Open Scope string_scope.
Open Scope Z_scope.
Set Warnings "-register-all".

(** ** Python values and exceptions *)

(** The values that travel through the codec: a schema is a mapping with
    string keys, a sample is a list of records. *)
Inductive value : Type :=
| VNone
| VBool (b : bool)
| VInt (n : Z)
| VStr (s : string)
| VList (items : list value)
| VDict (items : list (string * value)).

(** The exceptions (all subclasses of Python's [Exception]) that the module
    raises or meets. *)
Inductive exc : Type :=
| AttributeError (type_name attr : string)
| UnboundLocalError (var : string)
| TypeError (msg : string)
| CodecError
| DatabaseError (msg : string)
| Exception_ (msg : string).

Inductive outcome (A : Type) : Type :=
| Return (a : A)
| Raise (e : exc).
Arguments Return {A} a.
Arguments Raise {A} e.

(** [str(e)], as formatted into the log line of [destroy_schema]. *)
Definition exc_str (e : exc) : string :=
  match e with
  | AttributeError t a => "'" ++ t ++ "' object has no attribute '" ++ a ++ "'"
  | UnboundLocalError v => "local variable '" ++ v ++ "' referenced before assignment"
  | TypeError m => m
  | CodecError => "Incorrect padding"
  | DatabaseError m => m
  | Exception_ m => m
  end.

Module Py.

Definition type_name (v : value) : string :=
  match v with
  | VNone => "NoneType"
  | VBool _ => "bool"
  | VInt _ => "int"
  | VStr _ => "str"
  | VList _ => "list"
  | VDict _ => "dict"
  end.

(** [bool(v)]: what [if v:] and [not v] test. *)
Definition truthy (v : value) : bool :=
  match v with
  | VNone => false
  | VBool b => b
  | VInt n => negb (n =? 0)
  | VStr s => negb (String.eqb s "")
  | VList l => match l with [] => false | _ :: _ => true end
  | VDict d => match d with [] => false | _ :: _ => true end
  end.

(** [len(v)]. *)
Definition len (v : value) : outcome Z :=
  match v with
  | VStr s => Return (Z.of_nat (String.length s))
  | VList l => Return (Z.of_nat (List.length l))
  | VDict d => Return (Z.of_nat (List.length d))
  | _ => Raise (TypeError ("object of type '" ++ type_name v ++ "' has no len()"))
  end.

(** How many items [seq[:stop]] keeps of a sequence of [n] items: a
    negative [stop] counts from the end. *)
Definition slice_stop (n : nat) (stop : Z) : nat :=
  if stop <? 0 then Z.to_nat (Z.of_nat n + stop) else Z.to_nat stop.

(** [v[:stop]]. *)
Definition slice_to (v : value) (stop : Z) : outcome value :=
  match v with
  | VList l => Return (VList (firstn (slice_stop (List.length l) stop) l))
  | VStr s => Return (VStr (substring 0 (slice_stop (String.length s) stop) s))
  | VDict _ => Raise (TypeError "unhashable type: 'slice'")
  | _ => Raise (TypeError ("'" ++ type_name v ++ "' object is not subscriptable"))
  end.

(** [d[k] = v] on an insertion-ordered mapping. *)
Fixpoint dict_set (k : string) (v : value) (d : list (string * value))
  : list (string * value) :=
  match d with
  | [] => [(k, v)]
  | (k', v') :: d' =>
      if String.eqb k k' then (k, v) :: d' else (k', v') :: dict_set k v d'
  end.

Fixpoint dict_get (k : string) (d : list (string * value)) : option value :=
  match d with
  | [] => None
  | (k', v') :: d' => if String.eqb k k' then Some v' else dict_get k d'
  end.

(** What [d.update(other)] leaves in [d], for a mapping [other]. *)
Definition dict_merge (d other : list (string * value)) : list (string * value) :=
  fold_left (fun acc kv => dict_set (fst kv) (snd kv) acc) other d.

(** A method bound to its receiver, as the attribute lookup [recv.name]
    yields it.  The lookup is restricted to the two mutators that matter to
    [save_schema], [dict.update] and [list.append]; every other name is
    treated as undefined, which is exact for a name that no built-in type
    defines, such as the [updata] of line 169. *)
Inductive bound_method : Type :=
| dict_update (d : list (string * value))
| list_append (l : list value).

(** [getattr(recv, name)] for a method name. *)
Definition getattr (recv : value) (name : string) : outcome bound_method :=
  match recv with
  | VDict d =>
      if String.eqb name "update" then Return (dict_update d)
      else Raise (AttributeError "dict" name)
  | VList l =>
      if String.eqb name "append" then Return (list_append l)
      else Raise (AttributeError "list" name)
  | _ => Raise (AttributeError (type_name recv) name)
  end.

(** Calling [m] on [args]: the receiver after the call (both methods mutate it in
    place) paired with the value returned. *)
Definition call (m : bound_method) (args : list value) : outcome (value * value) :=
  match m with
  | dict_update d =>
      match args with
      | [] => Return (VDict d, VNone)
      | [VDict other] => Return (VDict (dict_merge d other), VNone)
      | [a] => Raise (TypeError ("'" ++ type_name a ++ "' object is not iterable"))
      | _ => Raise (TypeError "update expected at most 1 argument")
      end
  | list_append l =>
      match args with
      | [x] => Return (VList (l ++ [x]), VNone)
      | _ => Raise (TypeError "list.append() takes exactly one argument")
      end
  end.

End Py.

(** ** The codec boundary

    [serialize_b64] and [deserialize_b64] come from
    [arch.api.utils.core_utils]; the module only relies on their types, so
    they are an interface here.  Decoding may raise. *)
Class Codec : Type := {
  serialize_b64 : value -> string;
  deserialize_b64 : string -> outcome value
}.

(** ** The catalog table and the world the methods run in *)

(** One row of [MachineLearningDataSchema]. *)
Record MachineLearningDataSchema : Type := mkRow {
  f_table_name : string;
  f_namespace : string;
  f_schema : string;
  f_part_of_data : string;
  f_count : Z;
  f_update_time : Z
}.

Definition set_f_schema (b : string) (r : MachineLearningDataSchema) :=
  mkRow (f_table_name r) (f_namespace r) b (f_part_of_data r) (f_count r) (f_update_time r).
Definition set_f_part_of_data (b : string) (r : MachineLearningDataSchema) :=
  mkRow (f_table_name r) (f_namespace r) (f_schema r) b (f_count r) (f_update_time r).
Definition set_f_count (n : Z) (r : MachineLearningDataSchema) :=
  mkRow (f_table_name r) (f_namespace r) (f_schema r) (f_part_of_data r) n (f_update_time r).
Definition set_f_update_time (t : Z) (r : MachineLearningDataSchema) :=
  mkRow (f_table_name r) (f_namespace r) (f_schema r) (f_part_of_data r) (f_count r) t.

(** What the methods read and write: the rows of the catalog table, the
    clock behind [current_timestamp] and the lines written to [stat_logger].
    A database failure is modelled where the module handles one, in
    [destroy_schema]: [delete_fault] is the exception, if any, with which
    the database answers a deletion. *)
Record world : Type := mkWorld {
  db_rows : list MachineLearningDataSchema;
  delete_fault : option exc;
  clock : Z;
  stat_log : list string
}.

(** The identity a concrete table carries. *)
Record Table : Type := mkTable {
  _name : string;
  _namespace : string
}.

(** ** Computations: state that survives a raised exception *)

Definition M (A : Type) : Type := world -> outcome A * world.

Definition ret {A} (a : A) : M A := fun w => (Return a, w).
Definition raise {A} (e : exc) : M A := fun w => (Raise e, w).
Definition lift {A} (o : outcome A) : M A := fun w => (o, w).
Definition bind {A B} (m : M A) (k : A -> M B) : M B :=
  fun w => match m w with
           | (Return a, w') => k a w'
           | (Raise e, w') => (Raise e, w')
           end.
(** [try: m except ...: h e] *)
Definition try_except {A} (m : M A) (h : exc -> M A) : M A :=
  fun w => match m w with
           | (Return a, w') => (Return a, w')
           | (Raise e, w') => h e w'
           end.

Notation "x <- m ;; k" := (bind m (fun x => k))
  (at level 61, m at next level, right associativity).
Notation "m ;;; k" := (bind m (fun _ => k))
  (at level 61, right associativity).

(** ** Database statements *)

Definition row_matches (name namespace : string) (r : MachineLearningDataSchema) : bool :=
  String.eqb (f_table_name r) name && String.eqb (f_namespace r) namespace.

(** [MachineLearningDataSchema.select().where(f_table_name == name,
    f_namespace == namespace)], evaluated. *)
Definition select_where (name namespace : string) : M (list MachineLearningDataSchema) :=
  fun w => (Return (filter (row_matches name namespace) (db_rows w)), w).

(** [MachineLearningDataSchema.delete().where(...).execute()] inside
    [DB.connection_context()]: the statement removes every matching row,
    unless the database fails it. *)
Definition delete_where (name namespace : string) : M unit :=
  fun w => match delete_fault w with
           | Some e => (Raise e, w)
           | None =>
               (Return tt,
                mkWorld (filter (fun r => negb (row_matches name namespace r)) (db_rows w))
                        (delete_fault w) (clock w) (stat_log w))
           end.

Fixpoint replace_first (r : MachineLearningDataSchema) (rows : list MachineLearningDataSchema)
  : list MachineLearningDataSchema :=
  match rows with
  | [] => []
  | r' :: rows' =>
      if row_matches (f_table_name r) (f_namespace r) r' then r :: rows'
      else r' :: replace_first r rows'
  end.

(** Modelled from the spec: [MachineLearningDataSchema.save] belongs to
    [fate_flow.db.db_models], which is not part of this module.  The merged
    row is stored in place of the entry that was read. *)
Definition save (r : MachineLearningDataSchema) : M unit :=
  fun w => (Return tt,
            mkWorld (replace_first r (db_rows w)) (delete_fault w) (clock w) (stat_log w)).

Definition current_timestamp : M Z := fun w => (Return (clock w), w).

(** [stat_logger.error(line)]. *)
Definition stat_logger_error (line : string) : M unit :=
  fun w => (Return tt, mkWorld (db_rows w) (delete_fault w) (clock w) (stat_log w ++ [line])).

(** ** The metadata methods of [Table] *)

Section Methods.

Context {codec : Codec}.

(** [Table.get_schema]. *)
Definition get_schema (self : Table) (_type : string) : M value :=
  schema <- select_where (_name self) (_namespace self) ;;
  match schema with
  | [] => ret (VDict [])
  | schema0 :: _ =>
      try_except
        (if String.eqb _type "schema" then lift (deserialize_b64 (f_schema schema0))
         else if String.eqb _type "data" then lift (deserialize_b64 (f_part_of_data schema0))
         else if String.eqb _type "count" then ret (VInt (f_count schema0))
         else ret (VDict []))
        (fun _ => ret VNone)
  end.

(** The [# save schema info] block of [save_schema]: the local
    [_schema_data] is bound only when the stored blob is non-empty. *)
Definition save_schema_info (schema_data : value) (schema : MachineLearningDataSchema)
  : M MachineLearningDataSchema :=
  _schema_data <- (if negb (String.eqb (f_schema schema) "")
                   then d <- lift (deserialize_b64 (f_schema schema)) ;; ret (Some d)
                   else ret None) ;;
  d <- match _schema_data with
       | Some d => ret d
       | None => raise (UnboundLocalError "_schema_data")
       end ;;
  updata <- lift (Py.getattr d "updata") ;;
  r <- lift (Py.call updata [schema_data]) ;;
  ret (set_f_schema (serialize_b64 (fst r)) schema).

(** The [# save data] block. *)
Definition save_data (party_of_data : value) (schema : MachineLearningDataSchema)
  : M MachineLearningDataSchema :=
  if Py.truthy party_of_data then
    _f_part_of_data <- lift (deserialize_b64 (f_part_of_data schema)) ;;
    n <- lift (Py.len _f_part_of_data) ;;
    if n <? 200 then
      append <- lift (Py.getattr _f_part_of_data "append") ;;
      head <- lift (Py.slice_to party_of_data (200 - n)) ;;
      _ <- lift (Py.call append [head]) ;;
      head200 <- lift (Py.slice_to party_of_data 200) ;;
      ret (set_f_part_of_data (serialize_b64 head200) schema)
    else ret schema
  else ret schema.

(** The [# save count] block. *)
Definition save_count (count : Z) (schema : MachineLearningDataSchema)
  : MachineLearningDataSchema :=
  if negb (count =? 0) then set_f_count (f_count schema + count) schema else schema.

(** [Table.save_schema]. *)
Definition save_schema (self : Table) (schema_data party_of_data : value) (count : Z)
  : M unit :=
  let schema_data := if negb (Py.truthy schema_data) then VDict [] else schema_data in
  let party_of_data := if negb (Py.truthy party_of_data) then VList [] else party_of_data in
  schema <- select_where (_name self) (_namespace self) ;;
  match schema with
  | schema0 :: _ =>
      schema1 <- save_schema_info schema_data schema0 ;;
      schema2 <- save_data party_of_data schema1 ;;
      let schema3 := save_count count schema2 in
      now <- current_timestamp ;;
      save (set_f_update_time now schema3)
  | [] =>
      raise (Exception_ ("please create table " ++ _namespace self ++ " "
                         ++ _namespace self ++ " before useing"))
  end.

(** Lines 182-183 of [save_schema] on their own: the step every path that
    has merged into an existing entry ends with. *)
Definition save_schema_finish (schema : MachineLearningDataSchema) : M unit :=
  now <- current_timestamp ;;
  save (set_f_update_time now schema).

(** [Table.destroy_schema]. *)
Definition destroy_schema (self : Table) : M unit :=
  try_except
    (delete_where (_name self) (_namespace self))
    (fun e => stat_logger_error ("delete_table_meta " ++ _namespace self ++ ", "
                                 ++ _name self ++ ", exception:" ++ exc_str e ++ ".")).

(** [Table.destroy]: the base method destroys the schema; a subclass adds
    the removal of its data and calls this one. *)
Definition destroy (self : Table) : M unit :=
  _ <- destroy_schema self ;;
  ret tt.

End Methods.

(** ** A codec to run the methods on

    The production codec (pickle, then base64) is outside this module.  The
    general results below hold for every [Codec]; concrete runs use this
    length-prefixed text encoding, whose decoder rejects malformed blobs. *)
Module RefCodec.

Definition dumps_str (s : string) : string :=
  NilEmpty.string_of_uint (Nat.to_uint (String.length s)) ++ ":" ++ s.

Fixpoint dumps (v : value) : string :=
  match v with
  | VNone => "N"
  | VBool true => "T"
  | VBool false => "F"
  | VInt n => "i" ++ NilZero.string_of_int (Z.to_int n) ++ "e"
  | VStr s => dumps_str s
  | VList l => "l" ++ String.concat "" (map dumps l) ++ "e"
  | VDict d =>
      "d" ++ String.concat ""
               (map (fun kv => match kv with (k, x) => dumps_str k ++ dumps x end) d)
          ++ "e"
  end.

(** The text before the first [c] and the text after it. *)
Fixpoint split_at (c : ascii) (s : string) : option (string * string) :=
  match s with
  | EmptyString => None
  | String a s' =>
      if Ascii.eqb a c then Some (EmptyString, s')
      else match split_at c s' with
           | Some (pre, post) => Some (String a pre, post)
           | None => None
           end
  end.

Definition loads_str (s : string) : option (string * string) :=
  match split_at ":" s with
  | Some (String a digits, rest) =>
      match NilEmpty.uint_of_string (String a digits) with
      | Some u =>
          let n := Nat.of_uint u in
          if (n <=? String.length rest)%nat
          then Some (substring 0 n rest, substring n (String.length rest - n) rest)
          else None
      | None => None
      end
  | _ => None
  end.

Fixpoint loads_value (fuel : nat) (s : string) : option (value * string) :=
  match fuel with
  | O => None
  | S fuel' =>
      match s with
      | EmptyString => None
      | String c rest =>
          if Ascii.eqb c "N" then Some (VNone, rest)
          else if Ascii.eqb c "T" then Some (VBool true, rest)
          else if Ascii.eqb c "F" then Some (VBool false, rest)
          else if Ascii.eqb c "i" then
            match split_at "e" rest with
            | Some (digits, rest') =>
                match NilZero.int_of_string digits with
                | Some n => Some (VInt (Z.of_int n), rest')
                | None => None
                end
            | None => None
            end
          else if Ascii.eqb c "l" then
            match loads_list fuel' rest with
            | Some (l, rest') => Some (VList l, rest')
            | None => None
            end
          else if Ascii.eqb c "d" then
            match loads_dict fuel' rest with
            | Some (d, rest') => Some (VDict d, rest')
            | None => None
            end
          else
            match loads_str s with
            | Some (x, rest') => Some (VStr x, rest')
            | None => None
            end
      end
  end
with loads_list (fuel : nat) (s : string) : option (list value * string) :=
  match fuel with
  | O => None
  | S fuel' =>
      match s with
      | String "e" rest => Some ([], rest)
      | _ =>
          match loads_value fuel' s with
          | Some (x, rest) =>
              match loads_list fuel' rest with
              | Some (l, rest') => Some (x :: l, rest')
              | None => None
              end
          | None => None
          end
      end
  end
with loads_dict (fuel : nat) (s : string) : option (list (string * value) * string) :=
  match fuel with
  | O => None
  | S fuel' =>
      match s with
      | String "e" rest => Some ([], rest)
      | _ =>
          match loads_str s with
          | Some (k, rest) =>
              match loads_value fuel' rest with
              | Some (x, rest') =>
                  match loads_dict fuel' rest' with
                  | Some (d, rest'') => Some ((k, x) :: d, rest'')
                  | None => None
                  end
              | None => None
              end
          | None => None
          end
      end
  end.

Definition loads (s : string) : outcome value :=
  match loads_value (S (String.length s)) s with
  | Some (v, EmptyString) => Return v
  | _ => Raise CodecError
  end.

#[global] Instance codec : Codec := {|
  serialize_b64 := dumps;
  deserialize_b64 := loads
|}.

End RefCodec.

(** ** Observations on the catalog *)

(** The Catalog Entry of a table: the row [schema[0]] that both [get_schema]
    and [save_schema] read, if the query finds one. *)
Definition entry (self : Table) (w : world) : option MachineLearningDataSchema :=
  hd_error (filter (row_matches (_name self) (_namespace self)) (db_rows w)).

(** The arguments of one [save_schema] call. *)
Record save_args : Type := mkArgs {
  arg_schema_data : value;
  arg_party_of_data : value;
  arg_count : Z
}.

Section Observations.

Context {codec : Codec}.

(** A caller issuing [save_schema] calls one after the other, going on
    after a call that raised. *)
Fixpoint run_saves (self : Table) (calls : list save_args) (w : world) : world :=
  match calls with
  | [] => w
  | c :: calls' =>
      run_saves self calls'
        (snd (save_schema self (arg_schema_data c) (arg_party_of_data c) (arg_count c) w))
  end.

(** The number of entries of a row's sample, when the blob decodes to
    something that has a length. *)
Definition sample_len_of_row (r : MachineLearningDataSchema) : option Z :=
  match deserialize_b64 (f_part_of_data r) with
  | Return v => match Py.len v with Return n => Some n | Raise _ => None end
  | Raise _ => None
  end.

(** The same for the stored sample of a table. *)
Definition sample_len (self : Table) (w : world) : option Z :=
  match entry self w with
  | Some r => sample_len_of_row r
  | None => None
  end.

End Observations.

(** ** Concrete catalogs for the runs below *)
Module Run.

Import RefCodec.

Definition tbl : Table := mkTable "breast_a" "experiment".

(** One entry for [tbl], written at time 1000 with a one-column schema, a
    one-record sample and a count of 10; another table's entry after it. *)
Definition row0 : MachineLearningDataSchema :=
  mkRow "breast_a" "experiment"
        (dumps (VDict [("header", VStr "x0")]))
        (dumps (VList [VInt 1]))
        10 1000.

Definition other_row : MachineLearningDataSchema :=
  mkRow "breast_b" "experiment" (dumps (VDict [])) (dumps (VList [])) 0 900.

Definition w0 : world := mkWorld [row0; other_row] None 2000 [].

(** The same catalog with a database that fails deletions. *)
Definition w_down : world :=
  mkWorld [row0; other_row] (Some (DatabaseError "server has gone away")) 2000 [].

(** An entry created with an empty schema column. *)
Definition row_blank : MachineLearningDataSchema :=
  mkRow "breast_a" "experiment" "" (dumps (VList [])) 0 1000.

Definition w_blank : world := mkWorld [row_blank] None 2000 [].

(** An entry whose two blobs are cut short. *)
Definition row_corrupt : MachineLearningDataSchema :=
  mkRow "breast_a" "experiment" "d6:head" "l1:a" 10 1000.

Definition w_corrupt : world := mkWorld [row_corrupt] None 2000 [].

(** A catalog without an entry for [tbl]. *)
Definition w_none : world := mkWorld [other_row] None 2000 [].

(** Another table of the same namespace, with an entry ([other_row]), and
    one without. *)
Definition tbl_b : Table := mkTable "breast_b" "experiment".
Definition tbl_c : Table := mkTable "breast_c" "experiment".

(** The catalog of [w0] with a second, damaged row for [tbl] behind the
    first, at another time and with a line already logged. *)
Definition w_dup : world :=
  mkWorld [other_row; row0; row_corrupt] None 3000 ["started"].

(** An entry whose sample has reached the cap. *)
Definition row_full : MachineLearningDataSchema :=
  mkRow "breast_a" "experiment"
        (dumps (VDict [("header", VStr "x0")]))
        (dumps (VList (repeat (VInt 7) 200)))
        200 1000.

(** An entry whose sample column holds an encoded mapping. *)
Definition row_map : MachineLearningDataSchema :=
  mkRow "breast_a" "experiment"
        (dumps (VDict [("header", VStr "x0")]))
        (dumps (VDict [("k", VInt 1)]))
        1 1000.

End Run.

(** ** General facts about the methods *)

Section Facts.

Context {codec : Codec}.

Lemma getattr_updata (v : value) :
  Py.getattr v "updata" = Raise (AttributeError (Py.type_name v) "updata").
Proof. destruct v; reflexivity. Qed.

(** The [# save schema info] block never gets past line 169: either the
    local is unbound, or the blob does not decode, or the attribute lookup
    fails. *)
Lemma save_schema_info_raises (schema_data : value) (r : MachineLearningDataSchema)
      (w : world) :
  exists e, save_schema_info schema_data r w = (Raise e, w).
Proof.
  unfold save_schema_info, bind, lift, ret, raise.
  destruct (negb (f_schema r =? "")%string).
  - destruct (deserialize_b64 (f_schema r)) as [d | e].
    + rewrite getattr_updata. eexists; reflexivity.
    + eexists; reflexivity.
  - eexists; reflexivity.
Qed.

Lemma save_schema_raises (self : Table) (schema_data party_of_data : value) (count : Z)
      (w : world) :
  exists e, save_schema self schema_data party_of_data count w = (Raise e, w).
Proof.
  unfold save_schema, bind, select_where, raise.
  destruct (filter _ (db_rows w)) as [| r rest].
  - eexists; reflexivity.
  - match goal with
    | |- context [save_schema_info ?sd r w] =>
        destruct (save_schema_info_raises sd r w) as [e He]; rewrite He
    end.
    eexists; reflexivity.
Qed.

Lemma save_schema_world (self : Table) (schema_data party_of_data : value) (count : Z)
      (w : world) :
  snd (save_schema self schema_data party_of_data count w) = w.
Proof.
  destruct (save_schema_raises self schema_data party_of_data count w) as [e He].
  rewrite He. reflexivity.
Qed.

Lemma run_saves_world (self : Table) (calls : list save_args) (w : world) :
  run_saves self calls w = w.
Proof.
  induction calls as [| c calls IH]; simpl.
  - reflexivity.
  - rewrite save_schema_world. exact IH.
Qed.

(** The blocks after line 169, each on its own. *)

Lemma save_data_empty (party_of_data : value) (r : MachineLearningDataSchema) (w : world) :
  Py.truthy party_of_data = false -> save_data party_of_data r w = (Return r, w).
Proof. intros H. unfold save_data. rewrite H. reflexivity. Qed.

Lemma save_count_zero (r : MachineLearningDataSchema) : save_count 0 r = r.
Proof. reflexivity. Qed.

Lemma save_count_adds (count : Z) (r : MachineLearningDataSchema) :
  f_count (save_count count r) = f_count r + count.
Proof.
  unfold save_count. destruct (Z.eqb_spec count 0) as [-> | _]; simpl; lia.
Qed.

Lemma substring_length_le (s : string) (n : nat) :
  (String.length (substring 0 n s) <= n)%nat.
Proof.
  revert n. induction s as [| a s IH]; intros [| n]; simpl; try lia.
  specialize (IH n). lia.
Qed.

Lemma slice_to_len (v : value) (stop : Z) (v' : value) :
  0 <= stop -> Py.slice_to v stop = Return v' ->
  exists n, Py.len v' = Return n /\ n <= stop.
Proof.
  intros Hstop H. unfold Py.slice_to, Py.slice_stop in H.
  destruct (Z.ltb_spec stop 0) as [Hneg | _]; [lia |].
  destruct v; try discriminate; injection H as <-; simpl; eexists; split;
    try reflexivity.
  - pose proof (substring_length_le s (Z.to_nat stop)). lia.
  - pose proof (firstn_le_length (Z.to_nat stop) items). lia.
Qed.

(** Were it reached, the [# save data] block would keep a sample within
    the cap: it either leaves the blob alone or stores at most the first
    200 entries of the supplied list. *)
Lemma save_data_keeps_cap (party_of_data : value) (r r' : MachineLearningDataSchema)
      (w w' : world) (n : Z) :
  (forall v, deserialize_b64 (serialize_b64 v) = Return v) ->
  sample_len_of_row r = Some n -> n <= 200 ->
  save_data party_of_data r w = (Return r', w') ->
  exists n', sample_len_of_row r' = Some n' /\ n' <= 200.
Proof.
  intros Hrt Hn Hle H. unfold save_data, bind, lift, ret in H.
  destruct (Py.truthy party_of_data);
    [| injection H as <- _; eauto].
  destruct (deserialize_b64 (f_part_of_data r)) as [stored | ?]; [| discriminate].
  destruct (Py.len stored) as [m | ?]; [| discriminate].
  destruct (m <? 200); [| injection H as <- _; eauto].
  destruct (Py.getattr stored "append") as [append | ?]; [| discriminate].
  destruct (Py.slice_to party_of_data (200 - m)) as [head | ?]; [| discriminate].
  destruct (Py.call append [head]) as [? | ?]; [| discriminate].
  destruct (Py.slice_to party_of_data 200) as [head200 | ?] eqn:Hs; [| discriminate].
  injection H as <- _.
  apply slice_to_len in Hs; [| lia]. destruct Hs as (k & Hk & Hk200).
  exists k. split; [| exact Hk200].
  unfold sample_len_of_row, set_f_part_of_data; simpl. rewrite Hrt, Hk. reflexivity.
Qed.

(** What the block stores when it is reached with a non-empty list and a
    stored sample below the cap: the head of the supplied list alone.  The
    slice appended at line 175 goes into a local list that is not encoded. *)
Lemma save_data_overwrites (x : value) (supplied stored : list value)
      (r : MachineLearningDataSchema) (w : world) :
  deserialize_b64 (f_part_of_data r) = Return (VList stored) ->
  (List.length stored < 200)%nat ->
  save_data (VList (x :: supplied)) r w
  = (Return (set_f_part_of_data (serialize_b64 (VList (firstn 200 (x :: supplied)))) r), w).
Proof.
  intros Hdec Hlen. unfold save_data, bind, lift, ret.
  cbn [Py.truthy]. rewrite Hdec. cbn [Py.len].
  destruct (Z.ltb_spec (Z.of_nat (List.length stored)) 200) as [_ | Hge]; [| lia].
  reflexivity.
Qed.

Lemma entry_none_filter (self : Table) (w : world) :
  entry self w = None ->
  filter (row_matches (_name self) (_namespace self)) (db_rows w) = [].
Proof.
  unfold entry. destruct (filter _ _); [reflexivity | discriminate].
Qed.

Lemma entry_some_filter (self : Table) (w : world) (r : MachineLearningDataSchema) :
  entry self w = Some r ->
  exists rest, filter (row_matches (_name self) (_namespace self)) (db_rows w) = r :: rest.
Proof.
  unfold entry. destruct (filter _ _) as [| r0 rest]; [discriminate |].
  simpl. intros [= ->]. eauto.
Qed.

End Facts.

(** ** The claims about [get_schema], [save_schema] and [destroy_schema] *)

Section Claims.

Context {codec : Codec}.

Lemma filter_after_delete (name namespace : string) (rows : list MachineLearningDataSchema) :
  filter (row_matches name namespace)
         (filter (fun r => negb (row_matches name namespace r)) rows) = [].
Proof.
  induction rows as [| r rows IH]; simpl; [reflexivity |].
  destruct (row_matches name namespace r) eqn:Hr; simpl; [exact IH |].
  rewrite Hr. exact IH.
Qed.

(** C4. Whatever sequence of [save_schema] calls is issued on a table whose
    stored sample holds at most 200 entries, the stored sample still holds
    at most 200 entries afterwards (and so after every prefix of the
    sequence). *)
Theorem sample_never_exceeds_cap (self : Table) (calls : list save_args) (w : world) (n : Z) :
  sample_len self w = Some n -> n <= 200 ->
  exists n', sample_len self (run_saves self calls w) = Some n' /\ n' <= 200.
Proof.
  intros Hn Hle. rewrite run_saves_world. exists n. split; assumption.
Qed.

(** C5. When the catalog holds no entry for the table, [save_schema] raises
    the exception of line 181 (the error the specification calls
    CatalogEntryMissing), and the catalog still holds no entry for it: the
    call does not create one. *)
Theorem save_schema_requires_entry (self : Table) (schema_data party_of_data : value)
        (count : Z) (w : world) :
  entry self w = None ->
  save_schema self schema_data party_of_data count w
    = (Raise (Exception_ ("please create table " ++ _namespace self ++ " "
                          ++ _namespace self ++ " before useing")), w)
  /\ entry self (snd (save_schema self schema_data party_of_data count w)) = None.
Proof.
  intros Hnone.
  assert (Hrun : save_schema self schema_data party_of_data count w
                 = (Raise (Exception_ ("please create table " ++ _namespace self ++ " "
                                       ++ _namespace self ++ " before useing")), w)).
  { unfold save_schema, bind, select_where, raise.
    rewrite (entry_none_filter self w Hnone). reflexivity. }
  split; [exact Hrun |]. rewrite Hrun. exact Hnone.
Qed.

(** C6. When the catalog holds no entry for the table, [get_schema] returns
    the empty mapping for every [_type], and does not raise. *)
Theorem get_schema_no_entry (self : Table) (_type : string) (w : world) :
  entry self w = None ->
  get_schema self _type w = (Return (VDict []), w).
Proof.
  intros Hnone. unfold get_schema, bind, select_where, ret.
  rewrite (entry_none_filter self w Hnone). reflexivity.
Qed.

(** C7. When [get_schema] reads an entry whose schema blob (for
    [_type = 'schema']) or sample blob (for [_type = 'data']) fails to
    decode, the exception is caught and the call returns [None], Python's
    empty value, instead of raising. *)
Theorem get_schema_swallows_decoding_failure (self : Table) (_type : string) (w : world)
        (r : MachineLearningDataSchema) (e : exc) :
  entry self w = Some r ->
  (_type = "schema" /\ deserialize_b64 (f_schema r) = Raise e) \/
  (_type = "data" /\ deserialize_b64 (f_part_of_data r) = Raise e) ->
  get_schema self _type w = (Return VNone, w).
Proof.
  intros Hentry Hbad.
  destruct (entry_some_filter self w r Hentry) as [rest Hrows].
  unfold get_schema, bind, select_where, try_except, lift, ret. rewrite Hrows.
  destruct Hbad as [[-> Hdec] | [-> Hdec]]; simpl; rewrite Hdec; reflexivity.
Qed.

(** C9. [destroy_schema] always returns normally.  When the database
    executes the deletion, the catalog holds no entry for the table
    afterwards; when the deletion fails, the failure is written to
    [stat_logger] as one line and nothing else changes. *)
Theorem destroy_schema_swallows_failure (self : Table) (w : world) :
  fst (destroy_schema self w) = Return tt /\
  match delete_fault w with
  | None =>
      entry self (snd (destroy_schema self w)) = None
      /\ stat_log (snd (destroy_schema self w)) = stat_log w
  | Some e =>
      db_rows (snd (destroy_schema self w)) = db_rows w
      /\ stat_log (snd (destroy_schema self w))
         = app (stat_log w)
               ["delete_table_meta " ++ _namespace self ++ ", " ++ _name self
                ++ ", exception:" ++ exc_str e ++ "."]
  end.
Proof.
  unfold destroy_schema, try_except, delete_where, stat_logger_error, entry.
  destruct (delete_fault w) as [e |]; simpl.
  - repeat split.
  - rewrite filter_after_delete. repeat split.
Qed.

(** C10. A [save_schema] call on a table that has an entry leaves the
    stored sample blob as it was when the sample argument is empty or
    omitted, leaves the stored count as it was when [count] is 0, leaves
    the stored schema blob as it was when the schema argument is empty or
    omitted, and never touches the key columns. *)
Theorem save_schema_frame (self : Table) (schema_data party_of_data : value) (count : Z)
        (w : world) (r : MachineLearningDataSchema) :
  entry self w = Some r ->
  exists r',
    entry self (snd (save_schema self schema_data party_of_data count w)) = Some r'
    /\ (Py.truthy party_of_data = false -> f_part_of_data r' = f_part_of_data r)
    /\ (count = 0 -> f_count r' = f_count r)
    /\ (Py.truthy schema_data = false -> f_schema r' = f_schema r)
    /\ f_table_name r' = f_table_name r
    /\ f_namespace r' = f_namespace r.
Proof.
  intros Hentry. exists r. rewrite save_schema_world. repeat split; auto.
Qed.

End Claims.

(** ** The claims at concrete catalogs *)

(** Two calls that together supply 300 sample records to a table whose
    stored sample has one. *)
Lemma sample_never_exceeds_cap_witness :
  exists n',
    sample_len Run.tbl
      (run_saves Run.tbl
         [mkArgs VNone (VList (repeat (VInt 7) 150)) 0;
          mkArgs VNone (VList (repeat (VInt 7) 150)) 0]
         Run.w0) = Some n'
    /\ n' <= 200.
Proof.
  apply (sample_never_exceeds_cap Run.tbl _ Run.w0 1); [reflexivity | lia].
Defined.

Lemma save_schema_requires_entry_witness :
  save_schema Run.tbl (VDict [("sid", VStr "id")]) VNone 5 Run.w_none
    = (Raise (Exception_ "please create table experiment experiment before useing"),
       Run.w_none)
  /\ entry Run.tbl
       (snd (save_schema Run.tbl (VDict [("sid", VStr "id")]) VNone 5 Run.w_none)) = None.
Proof.
  apply (save_schema_requires_entry Run.tbl (VDict [("sid", VStr "id")]) VNone 5 Run.w_none).
  reflexivity.
Defined.

Lemma get_schema_no_entry_witness :
  get_schema Run.tbl "data" Run.w_none = (Return (VDict []), Run.w_none).
Proof.
  apply (get_schema_no_entry Run.tbl "data" Run.w_none). reflexivity.
Defined.

Lemma get_schema_swallows_decoding_failure_witness :
  get_schema Run.tbl "schema" Run.w_corrupt = (Return VNone, Run.w_corrupt).
Proof.
  apply (get_schema_swallows_decoding_failure
           Run.tbl "schema" Run.w_corrupt Run.row_corrupt CodecError).
  - reflexivity.
  - left. split; reflexivity.
Defined.

Lemma save_schema_frame_witness :
  exists r',
    entry Run.tbl (snd (save_schema Run.tbl (VDict [("sid", VStr "id")]) VNone 0 Run.w0))
      = Some r'
    /\ f_part_of_data r' = f_part_of_data Run.row0
    /\ f_count r' = f_count Run.row0.
Proof.
  destruct (save_schema_frame Run.tbl (VDict [("sid", VStr "id")]) VNone 0 Run.w0 Run.row0
              eq_refl) as (r' & Hentry & Hsample & Hcount & _).
  exists r'. split; [exact Hentry |]. split; [exact (Hsample eq_refl) | exact (Hcount eq_refl)].
Defined.

(** C1. On a table whose entry stores the schema [{'header': 'x0'}],
    [save_schema({'sid': 'id'})] raises [AttributeError] at line 169 and
    stores nothing, so the [get_schema('schema')] that follows returns the
    old mapping, which has no key ['sid'].  On an entry whose schema column
    is empty the same call raises [UnboundLocalError] instead. *)
Theorem save_schema_overlay_fails :
  save_schema Run.tbl (VDict [("sid", VStr "id")]) VNone 0 Run.w0
    = (Raise (AttributeError "dict" "updata"), Run.w0)
  /\ get_schema Run.tbl "schema"
       (snd (save_schema Run.tbl (VDict [("sid", VStr "id")]) VNone 0 Run.w0))
     = (Return (VDict [("header", VStr "x0")]), Run.w0)
  /\ Py.dict_get "sid" [("header", VStr "x0")] = None
  /\ save_schema Run.tbl (VDict [("sid", VStr "id")]) VNone 0 Run.w_blank
     = (Raise (UnboundLocalError "_schema_data"), Run.w_blank).
Proof. repeat split. Qed.

(** C2. On a table whose stored sample is [[1]], [save_schema] with the
    sample [[2]] raises at line 169 and the stored sample stays [[1]]
    instead of becoming [[1, 2]].  The [# save data] block on its own would
    not merge either: it stores the supplied list [[2]] in place of the old
    sample. *)
Theorem save_schema_sample_not_merged :
  save_schema Run.tbl VNone (VList [VInt 2]) 0 Run.w0
    = (Raise (AttributeError "dict" "updata"), Run.w0)
  /\ get_schema Run.tbl "data" (snd (save_schema Run.tbl VNone (VList [VInt 2]) 0 Run.w0))
     = (Return (VList [VInt 1]), Run.w0)
  /\ save_data (VList [VInt 2]) Run.row0 Run.w0
     = (Return (set_f_part_of_data (serialize_b64 (VList [VInt 2])) Run.row0), Run.w0)
  /\ serialize_b64 (VList [VInt 2]) <> serialize_b64 (VList [VInt 1; VInt 2]).
Proof. repeat split. discriminate. Qed.

(** C3. On a table whose stored count is 10, [save_schema(count=5)]
    followed by [save_schema(count=3)] leaves the stored count at 10, not
    18: both calls raise at line 169, before the count is added. *)
Theorem save_schema_count_not_added :
  save_schema Run.tbl VNone VNone 5 Run.w0 = (Raise (AttributeError "dict" "updata"), Run.w0)
  /\ save_schema Run.tbl VNone VNone 3 Run.w0 = (Raise (AttributeError "dict" "updata"), Run.w0)
  /\ get_schema Run.tbl "count"
       (run_saves Run.tbl [mkArgs VNone VNone 5; mkArgs VNone VNone 3] Run.w0)
     = (Return (VInt 10), Run.w0).
Proof. repeat split. Qed.

(** [save_schema] ends, on the branch of an existing entry, with the
    finishing step applied to the row the three blocks hand over. *)
Lemma save_schema_ends_with_finish {codec : Codec} (self : Table)
      (schema_data party_of_data : value) (count : Z) (w : world) :
  save_schema self schema_data party_of_data count w
  = (schema <- select_where (_name self) (_namespace self) ;;
     match schema with
     | schema0 :: _ =>
         schema1 <- save_schema_info
                      (if negb (Py.truthy schema_data) then VDict [] else schema_data)
                      schema0 ;;
         schema2 <- save_data
                      (if negb (Py.truthy party_of_data) then VList [] else party_of_data)
                      schema1 ;;
         save_schema_finish (save_count count schema2)
     | [] =>
         raise (Exception_ ("please create table " ++ _namespace self ++ " "
                            ++ _namespace self ++ " before useing"))
     end) w.
Proof. reflexivity. Qed.





(** ** Runs of [destroy_schema] *)

Example destroy_schema_deletes :
  destroy_schema Run.tbl Run.w0 = (Return tt, mkWorld [Run.other_row] None 2000 []).
Proof. reflexivity. Qed.

Example destroy_schema_logs :
  destroy_schema Run.tbl Run.w_down
  = (Return tt,
     mkWorld [Run.row0; Run.other_row] (Some (DatabaseError "server has gone away")) 2000
       ["delete_table_meta experiment, breast_a, exception:server has gone away."]).
Proof. reflexivity. Qed.

(** ** Further properties of the methods *)

Section Reads.

Context {codec : Codec}.

(** Once the query has answered, [get_schema] returns normally whatever
    rows it found and whatever their blobs hold, for every [_type], and it
    leaves the catalog, the clock and the log as they were: nothing in lines
    141-153 raises or writes. *)
Theorem get_schema_returns_once_queried (self : Table) (_type : string) (w : world)
        (rows : list MachineLearningDataSchema) :
  select_where (_name self) (_namespace self) w = (Return rows, w) ->
  exists v, get_schema self _type w = (Return v, w).
Proof.
  intros Hquery. unfold get_schema, bind. rewrite Hquery.
  unfold try_except, lift, ret.
  destruct rows as [| r rest]; [eauto |].
  destruct (_type =? "schema")%string.
  - destruct (deserialize_b64 (f_schema r)); eauto.
  - destruct (_type =? "data")%string.
    + destruct (deserialize_b64 (f_part_of_data r)); eauto.
    + destruct (_type =? "count")%string; eauto.
Qed.

(** On an entry whose blob decodes, [get_schema('schema')] returns the
    decoded schema blob and [get_schema('data')] the decoded sample blob. *)
Theorem get_schema_decodes (self : Table) (_type : string) (w : world)
        (r : MachineLearningDataSchema) (v : value) :
  entry self w = Some r ->
  (_type = "schema" /\ deserialize_b64 (f_schema r) = Return v) \/
  (_type = "data" /\ deserialize_b64 (f_part_of_data r) = Return v) ->
  get_schema self _type w = (Return v, w).
Proof.
  intros Hentry Hok.
  destruct (entry_some_filter self w r Hentry) as [rest Hrows].
  unfold get_schema, bind, select_where, try_except, lift, ret. rewrite Hrows.
  destruct Hok as [[-> Hdec] | [-> Hdec]]; simpl; rewrite Hdec; reflexivity.
Qed.

(** [get_schema('count')] returns the stored count as it is, whatever the
    two blobs of the entry hold: no decoding takes place on this path. *)
Theorem get_schema_count (self : Table) (w : world) (r : MachineLearningDataSchema) :
  entry self w = Some r ->
  get_schema self "count" w = (Return (VInt (f_count r)), w).
Proof.
  intros Hentry.
  destruct (entry_some_filter self w r Hentry) as [rest Hrows].
  unfold get_schema, bind, select_where, try_except, lift, ret. rewrite Hrows.
  reflexivity.
Qed.

(** With a [_type] other than 'schema', 'data' and 'count', [get_schema]
    answers the empty mapping on an existing entry, exactly as it does when
    there is no entry: an unknown [_type] is not reported. *)
Theorem get_schema_unknown_type (self : Table) (_type : string) (w : world)
        (r : MachineLearningDataSchema) :
  entry self w = Some r ->
  _type <> "schema" -> _type <> "data" -> _type <> "count" ->
  get_schema self _type w = (Return (VDict []), w).
Proof.
  intros Hentry Hs Hd Hc.
  destruct (entry_some_filter self w r Hentry) as [rest Hrows].
  unfold get_schema, bind, select_where, try_except, lift, ret. rewrite Hrows.
  apply String.eqb_neq in Hs, Hd, Hc. rewrite Hs, Hd, Hc. reflexivity.
Qed.

(** The value [get_schema] returns depends on the catalog only through the
    first row that matches the table's name and namespace: rows of other
    tables, and further rows with the same key, play no part. *)
Theorem get_schema_reads_first_match (self : Table) (_type : string) (w1 w2 : world) :
  entry self w1 = entry self w2 ->
  fst (get_schema self _type w1) = fst (get_schema self _type w2).
Proof.
  unfold entry, get_schema, bind, select_where, try_except, lift, ret.
  destruct (filter _ (db_rows w1)) as [| r1 rest1];
    destruct (filter _ (db_rows w2)) as [| r2 rest2]; simpl; try discriminate.
  - reflexivity.
  - intros [= ->].
    destruct (_type =? "schema")%string.
    + destruct (deserialize_b64 (f_schema r2)); reflexivity.
    + destruct (_type =? "data")%string.
      * destruct (deserialize_b64 (f_part_of_data r2)); reflexivity.
      * destruct (_type =? "count")%string; reflexivity.
Qed.

End Reads.

Section Writes.

Context {codec : Codec}.

(** The exception with which [save_schema] leaves line 167-169 on a row. *)
Lemma save_schema_on_rows (self : Table) (schema_data party_of_data : value) (count : Z)
      (w : world) (r : MachineLearningDataSchema) (rest : list MachineLearningDataSchema) :
  filter (row_matches (_name self) (_namespace self)) (db_rows w) = r :: rest ->
  save_schema self schema_data party_of_data count w
  = (Raise (if (f_schema r =? "")%string then UnboundLocalError "_schema_data"
            else match deserialize_b64 (f_schema r) with
                 | Return stored => AttributeError (Py.type_name stored) "updata"
                 | Raise e => e
                 end), w).
Proof.
  intros Hrows.
  unfold save_schema, bind, select_where. rewrite Hrows.
  unfold save_schema_info, bind, lift, ret, raise.
  destruct (f_schema r =? "")%string; simpl; [reflexivity |].
  destruct (deserialize_b64 (f_schema r)) as [stored | e]; [| reflexivity].
  rewrite getattr_updata. reflexivity.
Qed.

(** [save_schema] never returns normally: whatever the table, the
    arguments and the catalog, it raises, and the catalog, the clock and the
    log are left as they were. *)
Theorem save_schema_never_succeeds (self : Table) (schema_data party_of_data : value)
        (count : Z) (w : world) :
  exists e, save_schema self schema_data party_of_data count w = (Raise e, w).
Proof.
  destruct (filter (row_matches (_name self) (_namespace self)) (db_rows w))
    as [| r rest] eqn:Hrows.
  - unfold save_schema, bind, select_where, raise. rewrite Hrows. eauto.
  - rewrite (save_schema_on_rows self schema_data party_of_data count w r rest Hrows). eauto.
Qed.

(** Which exception [save_schema] raises on an existing entry: with an
    empty schema column the local [_schema_data] is unbound
    ([UnboundLocalError]); with a schema blob that decodes, the lookup of
    [updata] on the decoded value fails ([AttributeError], naming that
    value's type); with a blob that does not decode, the codec's exception
    comes out unchanged, not swallowed as in [get_schema]. *)
Theorem save_schema_failure_on_entry (self : Table) (schema_data party_of_data : value)
        (count : Z) (w : world) (r : MachineLearningDataSchema) :
  entry self w = Some r ->
  save_schema self schema_data party_of_data count w
  = (Raise (if (f_schema r =? "")%string then UnboundLocalError "_schema_data"
            else match deserialize_b64 (f_schema r) with
                 | Return stored => AttributeError (Py.type_name stored) "updata"
                 | Raise e => e
                 end), w).
Proof.
  intros Hentry. destruct (entry_some_filter self w r Hentry) as [rest Hrows].
  exact (save_schema_on_rows self schema_data party_of_data count w r rest Hrows).
Qed.

(** The outcome of [save_schema] does not depend on its three arguments:
    two calls on the same table and catalog end alike, whatever schema,
    sample and count each is given. *)
Theorem save_schema_ignores_arguments (self : Table) (schema_data party_of_data : value)
        (count : Z) (schema_data' party_of_data' : value) (count' : Z) (w : world) :
  save_schema self schema_data party_of_data count w
  = save_schema self schema_data' party_of_data' count' w.
Proof.
  destruct (filter (row_matches (_name self) (_namespace self)) (db_rows w))
    as [| r rest] eqn:Hrows.
  - unfold save_schema, bind, select_where, raise. rewrite Hrows. reflexivity.
  - rewrite (save_schema_on_rows self schema_data party_of_data count w r rest Hrows).
    rewrite (save_schema_on_rows self schema_data' party_of_data' count' w r rest Hrows).
    reflexivity.
Qed.

(** The exception raised for a table without an entry is built from the
    namespace alone (line 181 formats it twice): two such tables of one
    namespace get the same exception, whatever their names. *)
Theorem save_schema_missing_entry_message (self other : Table)
        (schema_data party_of_data : value) (count : Z) (w : world) :
  entry self w = None -> entry other w = None ->
  _namespace self = _namespace other ->
  fst (save_schema self schema_data party_of_data count w)
  = fst (save_schema other schema_data party_of_data count w).
Proof.
  intros Hself Hother Hns.
  unfold save_schema, bind, select_where, raise.
  rewrite (entry_none_filter self w Hself), (entry_none_filter other w Hother), Hns.
  reflexivity.
Qed.

(** The [# save data] block leaves the row alone once the stored sample has
    200 entries or more, whatever list is supplied. *)
Theorem save_data_full_sample (party_of_data stored : value) (n : Z)
        (r : MachineLearningDataSchema) (w : world) :
  deserialize_b64 (f_part_of_data r) = Return stored ->
  Py.len stored = Return n -> 200 <= n ->
  save_data party_of_data r w = (Return r, w).
Proof.
  intros Hdec Hlen Hn. unfold save_data, bind, lift, ret.
  destruct (Py.truthy party_of_data); [| reflexivity].
  rewrite Hdec, Hlen.
  destruct (Z.ltb_spec n 200) as [Hlt | _]; [lia | reflexivity].
Qed.

(** Whenever the [# save data] block returns, the sample of the row it
    returns is within the cap, provided the old one was and the codec
    decodes what it encoded of the supplied list. *)
Theorem save_data_within_cap (party_of_data : value) (r r' : MachineLearningDataSchema)
        (w w' : world) (n : Z) :
  (forall head, Py.slice_to party_of_data 200 = Return head ->
                deserialize_b64 (serialize_b64 head) = Return head) ->
  sample_len_of_row r = Some n -> n <= 200 ->
  save_data party_of_data r w = (Return r', w') ->
  exists n', sample_len_of_row r' = Some n' /\ n' <= 200.
Proof.
  intros Hrt Hn Hle H. unfold save_data, bind, lift, ret in H.
  destruct (Py.truthy party_of_data); [| injection H as <- _; eauto].
  destruct (deserialize_b64 (f_part_of_data r)) as [stored | ?]; [| discriminate].
  destruct (Py.len stored) as [m | ?]; [| discriminate].
  destruct (m <? 200); [| injection H as <- _; eauto].
  destruct (Py.getattr stored "append") as [append | ?]; [| discriminate].
  destruct (Py.slice_to party_of_data (200 - m)) as [head | ?]; [| discriminate].
  destruct (Py.call append [head]) as [? | ?]; [| discriminate].
  destruct (Py.slice_to party_of_data 200) as [head200 | ?] eqn:Hs; [| discriminate].
  injection H as <- _.
  pose proof (Hrt head200 eq_refl) as Hdec.
  apply slice_to_len in Hs; [| lia]. destruct Hs as (k & Hk & Hk200).
  exists k. split; [| exact Hk200].
  unfold sample_len_of_row, set_f_part_of_data; simpl. rewrite Hdec, Hk. reflexivity.
Qed.

(** A stored sample blob that does not decode makes the [# save data]
    block raise the codec's exception as soon as a non-empty list is
    supplied: the write path has no handler around the decoding. *)
Theorem save_data_decoding_failure (party_of_data : value) (r : MachineLearningDataSchema)
        (w : world) (e : exc) :
  Py.truthy party_of_data = true ->
  deserialize_b64 (f_part_of_data r) = Raise e ->
  save_data party_of_data r w = (Raise e, w).
Proof.
  intros Hpd Hdec. unfold save_data, bind, lift. rewrite Hpd, Hdec. reflexivity.
Qed.

(** A stored sample that decodes to a mapping passes the length test but
    has no [append]: the block raises [AttributeError] and returns no row. *)
Theorem save_data_on_mapping (party_of_data : value) (d : list (string * value))
        (r : MachineLearningDataSchema) (w : world) :
  Py.truthy party_of_data = true ->
  deserialize_b64 (f_part_of_data r) = Return (VDict d) ->
  (List.length d < 200)%nat ->
  save_data party_of_data r w = (Raise (AttributeError "dict" "append"), w).
Proof.
  intros Hpd Hdec Hlen. unfold save_data, bind, lift. rewrite Hpd, Hdec. cbn [Py.len].
  destruct (Z.ltb_spec (Z.of_nat (List.length d)) 200) as [_ | Hge]; [| lia].
  reflexivity.
Qed.

(** Adding counts in two steps is adding their sum: the [# save count]
    block composes additively, and the zero count is its identity. *)
Theorem save_count_compose (a b : Z) (r : MachineLearningDataSchema) :
  save_count a (save_count b r) = save_count (b + a) r.
Proof.
  unfold save_count, set_f_count. destruct r as [tn ns sc pd c ut].
  destruct (Z.eqb_spec a 0) as [Ha | Ha]; destruct (Z.eqb_spec b 0) as [Hb | Hb];
    destruct (Z.eqb_spec (b + a) 0) as [Hab | Hab]; simpl; try lia;
    try reflexivity; f_equal; lia.
Qed.

End Writes.

Section Deletes.

Context {codec : Codec}.

Lemma destroy_is_destroy_schema (self : Table) (w : world) :
  destroy self w = destroy_schema self w.
Proof.
  unfold destroy, bind, ret, destroy_schema, try_except, delete_where, stat_logger_error.
  destruct (delete_fault w); reflexivity.
Qed.

Lemma destroy_rows (self : Table) (w : world) :
  db_rows (snd (destroy self w))
  = match delete_fault w with
    | None => filter (fun r => negb (row_matches (_name self) (_namespace self) r)) (db_rows w)
    | Some _ => db_rows w
    end.
Proof.
  rewrite destroy_is_destroy_schema.
  unfold destroy_schema, try_except, delete_where, stat_logger_error.
  destruct (delete_fault w); reflexivity.
Qed.

Lemma row_matches_exclusive (self other : Table) (r : MachineLearningDataSchema) :
  _name other <> _name self \/ _namespace other <> _namespace self ->
  row_matches (_name other) (_namespace other) r = true ->
  row_matches (_name self) (_namespace self) r = false.
Proof.
  unfold row_matches. intros Hdiff Hother.
  apply andb_true_iff in Hother. destruct Hother as [Hn Hns].
  apply String.eqb_eq in Hn, Hns.
  apply andb_false_iff.
  destruct Hdiff as [Hd | Hd]; [left | right]; apply String.eqb_neq; congruence.
Qed.

Lemma filter_under_removal {A : Type} (p q : A -> bool) (l : list A) :
  (forall x, p x = true -> q x = false) ->
  filter p (filter (fun x => negb (q x)) l) = filter p l.
Proof.
  intros Hpq. induction l as [| x l IH]; simpl; [reflexivity |].
  destruct (q x) eqn:Hq; simpl.
  - destruct (p x) eqn:Hp; [| exact IH].
    rewrite (Hpq x Hp) in Hq. discriminate.
  - destruct (p x); [f_equal |]; exact IH.
Qed.

Lemma get_schema_rows (self : Table) (_type : string) (w1 w2 : world) :
  db_rows w1 = db_rows w2 ->
  fst (get_schema self _type w1) = fst (get_schema self _type w2).
Proof.
  intros Hrows. unfold get_schema, bind, select_where, try_except, lift, ret.
  rewrite Hrows.
  destruct (filter _ (db_rows w2)) as [| r rest]; [reflexivity |].
  destruct (_type =? "schema")%string.
  - destruct (deserialize_b64 (f_schema r)); reflexivity.
  - destruct (_type =? "data")%string.
    + destruct (deserialize_b64 (f_part_of_data r)); reflexivity.
    + destruct (_type =? "count")%string; reflexivity.
Qed.

(** After a [destroy] that the database executes, [get_schema] answers the
    empty mapping for the table, for every [_type]. *)
Theorem destroy_then_get_schema (self : Table) (_type : string) (w : world) :
  delete_fault w = None ->
  get_schema self _type (snd (destroy self w))
  = (Return (VDict []), snd (destroy self w)).
Proof.
  intros Hok. unfold get_schema, bind, select_where, ret.
  rewrite destroy_rows, Hok, filter_after_delete. reflexivity.
Qed.

(** After a [destroy] that the database executes, [save_schema] on the same
    table raises the exception of line 181: the entry is gone and is not
    created again. *)
Theorem destroy_then_save_schema (self : Table) (schema_data party_of_data : value)
        (count : Z) (w : world) :
  delete_fault w = None ->
  fst (save_schema self schema_data party_of_data count (snd (destroy self w)))
  = Raise (Exception_ ("please create table " ++ _namespace self ++ " "
                       ++ _namespace self ++ " before useing")).
Proof.
  intros Hok. unfold save_schema, bind, select_where, raise.
  rewrite destroy_rows, Hok, filter_after_delete. reflexivity.
Qed.

(** A [destroy] whose deletion fails leaves the table's metadata readable:
    [get_schema] returns afterwards what it returned before. *)
Theorem failed_destroy_keeps_schema (self : Table) (_type : string) (w : world) (e : exc) :
  delete_fault w = Some e ->
  fst (get_schema self _type (snd (destroy self w))) = fst (get_schema self _type w).
Proof.
  intros Hfault. apply get_schema_rows. rewrite destroy_rows, Hfault. reflexivity.
Qed.

(** [destroy_schema] removes rows of its own table only: the rows that the
    query of a table with another name or another namespace selects are the
    same before and after, whether the deletion is executed or fails. *)
Theorem destroy_schema_keeps_other_tables (self other : Table) (w : world) :
  _name other <> _name self \/ _namespace other <> _namespace self ->
  filter (row_matches (_name other) (_namespace other))
         (db_rows (snd (destroy_schema self w)))
  = filter (row_matches (_name other) (_namespace other)) (db_rows w).
Proof.
  intros Hdiff. rewrite <- destroy_is_destroy_schema, destroy_rows.
  destruct (delete_fault w); [reflexivity |].
  apply filter_under_removal. intros r. apply row_matches_exclusive. exact Hdiff.
Qed.

(** Once the database has executed the deletion, a second [destroy_schema]
    changes nothing and returns normally again: deleting a table that has
    no entry is not an error. *)
Theorem destroy_schema_idempotent (self : Table) (w : world) :
  delete_fault w = None ->
  destroy_schema self (snd (destroy_schema self w))
  = (Return tt, snd (destroy_schema self w)).
Proof.
  intros Hok. unfold destroy_schema, try_except, delete_where, stat_logger_error.
  rewrite Hok. simpl. f_equal. f_equal.
  induction (db_rows w) as [| r rows IH]; simpl; [reflexivity |].
  destruct (row_matches (_name self) (_namespace self) r) eqn:Hr; simpl; [exact IH |].
  rewrite Hr. simpl. f_equal. exact IH.
Qed.

End Deletes.

(** ** The further properties at concrete catalogs *)

Lemma get_schema_decodes_witness :
  get_schema Run.tbl "data" Run.w0 = (Return (VList [VInt 1]), Run.w0).
Proof.
  apply (get_schema_decodes Run.tbl "data" Run.w0 Run.row0 (VList [VInt 1])).
  - reflexivity.
  - right. split; reflexivity.
Defined.

Lemma get_schema_count_witness :
  get_schema Run.tbl "count" Run.w_corrupt = (Return (VInt 10), Run.w_corrupt).
Proof.
  apply (get_schema_count Run.tbl Run.w_corrupt Run.row_corrupt). reflexivity.
Defined.

Lemma get_schema_unknown_type_witness :
  get_schema Run.tbl "meta" Run.w0 = (Return (VDict []), Run.w0).
Proof.
  apply (get_schema_unknown_type Run.tbl "meta" Run.w0 Run.row0);
    [reflexivity | discriminate | discriminate | discriminate].
Defined.

Lemma get_schema_reads_first_match_witness :
  fst (get_schema Run.tbl "schema" Run.w0) = fst (get_schema Run.tbl "schema" Run.w_dup).
Proof.
  apply (get_schema_reads_first_match Run.tbl "schema" Run.w0 Run.w_dup). reflexivity.
Defined.

Lemma save_schema_failure_on_entry_witness :
  save_schema Run.tbl (VDict [("sid", VStr "id")]) (VList [VInt 2]) 5 Run.w0
  = (Raise (AttributeError "dict" "updata"), Run.w0).
Proof.
  exact (save_schema_failure_on_entry
           Run.tbl (VDict [("sid", VStr "id")]) (VList [VInt 2]) 5 Run.w0 Run.row0 eq_refl).
Defined.

Lemma save_schema_missing_entry_message_witness :
  fst (save_schema Run.tbl VNone VNone 0 Run.w_none)
  = fst (save_schema Run.tbl_c VNone VNone 0 Run.w_none).
Proof.
  apply (save_schema_missing_entry_message Run.tbl Run.tbl_c VNone VNone 0 Run.w_none);
    reflexivity.
Defined.

Lemma save_data_full_sample_witness :
  save_data (VList [VInt 2]) Run.row_full Run.w0 = (Return Run.row_full, Run.w0).
Proof.
  apply (save_data_full_sample
           (VList [VInt 2]) (VList (repeat (VInt 7) 200)) 200 Run.row_full Run.w0).
  - vm_compute. reflexivity.
  - reflexivity.
  - lia.
Defined.

Lemma save_data_within_cap_witness :
  exists n',
    sample_len_of_row
      (set_f_part_of_data (serialize_b64 (VList [VInt 2; VInt 3])) Run.row0) = Some n'
    /\ n' <= 200.
Proof.
  apply (save_data_within_cap
           (VList [VInt 2; VInt 3]) Run.row0
           (set_f_part_of_data (serialize_b64 (VList [VInt 2; VInt 3])) Run.row0)
           Run.w0 Run.w0 1).
  - intros head Hhead. injection Hhead as <-. reflexivity.
  - reflexivity.
  - lia.
  - reflexivity.
Defined.

Lemma save_data_overwrites_witness :
  save_data (VList [VInt 2; VInt 3]) Run.row0 Run.w0
  = (Return (set_f_part_of_data (serialize_b64 (VList [VInt 2; VInt 3])) Run.row0), Run.w0).
Proof.
  apply (save_data_overwrites (VInt 2) [VInt 3] [VInt 1] Run.row0 Run.w0).
  - reflexivity.
  - simpl. lia.
Defined.

Lemma save_data_decoding_failure_witness :
  save_data (VList [VInt 2]) Run.row_corrupt Run.w_corrupt = (Raise CodecError, Run.w_corrupt).
Proof.
  apply (save_data_decoding_failure (VList [VInt 2]) Run.row_corrupt Run.w_corrupt CodecError);
    reflexivity.
Defined.

Lemma save_data_on_mapping_witness :
  save_data (VList [VInt 2]) Run.row_map Run.w0
  = (Raise (AttributeError "dict" "append"), Run.w0).
Proof.
  apply (save_data_on_mapping (VList [VInt 2]) [("k", VInt 1)] Run.row_map Run.w0).
  - reflexivity.
  - reflexivity.
  - simpl. lia.
Defined.

Lemma destroy_then_get_schema_witness :
  get_schema Run.tbl "schema" (snd (destroy Run.tbl Run.w0))
  = (Return (VDict []), snd (destroy Run.tbl Run.w0)).
Proof.
  apply (destroy_then_get_schema Run.tbl "schema" Run.w0). reflexivity.
Defined.

Lemma destroy_then_save_schema_witness :
  fst (save_schema Run.tbl (VDict [("sid", VStr "id")]) VNone 0 (snd (destroy Run.tbl Run.w0)))
  = Raise (Exception_ "please create table experiment experiment before useing").
Proof.
  apply (destroy_then_save_schema Run.tbl (VDict [("sid", VStr "id")]) VNone 0 Run.w0).
  reflexivity.
Defined.

Lemma failed_destroy_keeps_schema_witness :
  fst (get_schema Run.tbl "schema" (snd (destroy Run.tbl Run.w_down)))
  = fst (get_schema Run.tbl "schema" Run.w_down).
Proof.
  apply (failed_destroy_keeps_schema
           Run.tbl "schema" Run.w_down (DatabaseError "server has gone away")).
  reflexivity.
Defined.

Lemma destroy_schema_keeps_other_tables_witness :
  filter (row_matches "breast_b" "experiment")
         (db_rows (snd (destroy_schema Run.tbl Run.w0)))
  = filter (row_matches "breast_b" "experiment") (db_rows Run.w0).
Proof.
  apply (destroy_schema_keeps_other_tables Run.tbl Run.tbl_b Run.w0).
  left. discriminate.
Defined.

Lemma destroy_schema_idempotent_witness :
  destroy_schema Run.tbl (snd (destroy_schema Run.tbl Run.w0))
  = (Return tt, snd (destroy_schema Run.tbl Run.w0)).
Proof.
  apply (destroy_schema_idempotent Run.tbl Run.w0). reflexivity.
Defined.

Lemma get_schema_returns_once_queried_witness :
  exists v, get_schema Run.tbl "schema" Run.w_corrupt = (Return v, Run.w_corrupt).
Proof.
  apply (get_schema_returns_once_queried Run.tbl "schema" Run.w_corrupt [Run.row_corrupt]).
  reflexivity.
Defined.
